(** * application.py: artifact store, inference and HTTP handlers

    A shallow embedding of [src/application.py]: the two module globals
    [_loaded_model] and [_vectorizer] with their lock, the loader
    [_load_artifacts_once], the inference function [_predict_text], the
    warm-up [_eager_load_background] and the four Flask handlers.

    Sequential code is written in a state-and-exception monad over the
    globals.  The interleaving of several threads inside
    [_load_artifacts_once] is a scheduler-driven step function over the same
    globals, one step per global read, lock operation or file load. *)

From stdpp Require Import base option list strings pretty.
From Stdlib Require Import ZArith NArith Ascii String Lia.

Set Warnings "-register-all".

(** ** Python strings *)

(** A Python [str] is a sequence of Unicode code points. *)
Definition pystr := list N.

Definition of_string (s : string) : pystr :=
  N_of_ascii <$> list_ascii_of_string s.

(** [str.isspace] on one code point: the characters [str.strip()] removes. *)
Definition py_isspace (c : N) : bool :=
  ((9 <=? c) && (c <=? 13))%N || ((28 <=? c) && (c <=? 32))%N
  || (c =? 133)%N || (c =? 160)%N || (c =? 5760)%N
  || ((8192 <=? c) && (c <=? 8202))%N || (c =? 8232)%N || (c =? 8233)%N
  || (c =? 8239)%N || (c =? 8287)%N || (c =? 12288)%N.

Fixpoint lstrip (s : pystr) : pystr :=
  match s with
  | c :: s' => if py_isspace c then lstrip s' else s
  | [] => []
  end.

Definition rstrip (s : pystr) : pystr := reverse (lstrip (reverse s)).

(** [s.strip()] *)
Definition strip (s : pystr) : pystr := rstrip (lstrip s).

(** Python truthiness of a string: [not s] holds exactly for the empty one. *)
Definition str_truthy (s : pystr) : bool :=
  match s with [] => false | _ :: _ => true end.

(** ** Exceptions and results *)

(** Exception classes, all deriving from [Exception]: the ones [open],
    [pickle.load] and the code itself raise, and any other class by its
    name.  Only the first is a [FileNotFoundError]. *)
Inductive exn :=
| FileNotFoundError
| PermissionError
| IsADirectoryError
| UnpicklingError
| EOFError
| AttributeError
| IndexError
| TypeError
| ValueError
| OtherError (name : string).

Definition is_FileNotFoundError (e : exn) : bool :=
  match e with FileNotFoundError => true | _ => false end.

(** What a call gives: a value or a raised exception. *)
Inductive result (A : Type) :=
| Ok (a : A)
| Raise (e : exn).
Arguments Ok {A} a.
Arguments Raise {A} e.

(** ** Python values met by the code *)

(** A decoded JSON document, as [request.get_json] returns it.  Floating
    point numbers are left out. *)
Inductive json :=
| JNull
| JBool (b : bool)
| JInt (z : Z)
| JStr (s : pystr)
| JArr (l : list json)
| JObj (kv : list (pystr * json)).

(** An element of the prediction array.  [PyObject] is any object seen
    through the two things the code does with it: look up an [item]
    attribute and call it, and take [str] of it. *)
Inductive pyval :=
| PyNone
| PyBool (b : bool)
| PyInt (z : Z)
| PyStr (s : pystr)
| PyObject (item_method : option (result pyval)) (str_form : pystr).

(** A numpy integer scalar: [item()] gives the native [int]. *)
Definition np_int64 (z : Z) : pyval :=
  PyObject (Some (Ok (PyInt z))) (of_string (pretty z)).

(** [hasattr(val, "item")]: the native scalars have no such attribute. *)
Definition hasattr_item (val : pyval) : bool :=
  match val with
  | PyObject (Some _) _ => true
  | _ => false
  end.

(** [val.item()] *)
Definition call_item (val : pyval) : result pyval :=
  match val with
  | PyObject (Some r) _ => r
  | _ => Raise AttributeError
  end.

Definition str_of_bool (b : bool) : pystr :=
  of_string (if b then "True" else "False").

(** [str(val)] on a prediction value. *)
Definition py_str (val : pyval) : pystr :=
  match val with
  | PyNone => of_string "None"
  | PyBool b => str_of_bool b
  | PyInt z => of_string (pretty z)
  | PyStr s => s
  | PyObject _ s => s
  end.

(** [bool(j)] on decoded JSON. *)
Definition json_truthy (j : json) : bool :=
  match j with
  | JNull => false
  | JBool b => b
  | JInt z => negb (z =? 0)%Z
  | JStr s => str_truthy s
  | JArr l => match l with [] => false | _ => true end
  | JObj kv => match kv with [] => false | _ => true end
  end.

(** [d.get(key)] on the key-value pairs of a [dict], in insertion order. *)
Fixpoint dict_get (key : pystr) (kv : list (pystr * json)) : option json :=
  match kv with
  | [] => None
  | (k, v) :: kv' => if decide (k = key) then Some v else dict_get key kv'
  end.

(** ** The process environment *)

(** What the module takes from outside: the two paths resolved from the
    environment at import time, the type of the feature matrix the
    vectorizer hands to the classifier, and the interpreter's [repr] of a
    list or dict (what [str] of such a value prints). *)
Class Runtime := {
  MODEL_PATH : pystr;
  VECTORIZER_PATH : pystr;
  features : Type;
  py_repr : json -> pystr;
}.

Section Application.
Context `{Runtime}.

(** [str(j)] on decoded JSON. *)
Definition json_str (j : json) : pystr :=
  match j with
  | JNull => of_string "None"
  | JBool b => str_of_bool b
  | JInt z => of_string (pretty z)
  | JStr s => s
  | JArr _ | JObj _ => py_repr j
  end.

(** An unpickled artifact, seen through the two methods the code calls.
    Both are functions of their argument: the artifacts are deterministic
    and calling them does not change them. *)
Record artifact := Artifact {
  transform : list pystr -> result features;
  predict : features -> result (list pyval);
}.

(** The files at one moment: [open(path, "rb")] followed by
    [pickle.load], per path. *)
Definition filesystem := pystr -> result artifact.

(** The two artifact globals. *)
Record store := Store {
  _loaded_model : option artifact;
  _vectorizer : option artifact;
}.

(** The globals when the module has just been imported. *)
Definition initial_store : store := Store None None.

(** ** State and exception monad over the globals *)

Definition M (A : Type) : Type := store -> result A * store.

#[export] Instance M_ret : MRet M := fun A a s => (Ok a, s).

#[export] Instance M_bind : MBind M := fun A B k m s =>
  match m s with
  | (Ok a, s') => k a s'
  | (Raise e, s') => (Raise e, s')
  end.

(** Lift a call that does not touch the globals. *)
Definition lift {A} (r : result A) : M A := fun s => (r, s).

(** [try: m  except ...: h e] for a handler catching the exceptions it is
    given. *)
Definition try_except {A} (m : M A) (h : exn -> M A) : M A :=
  fun s =>
    match m s with
    | (Raise e, s') => h e s'
    | r => r
    end.

Definition get_loaded_model : M (option artifact) :=
  fun s => (Ok (_loaded_model s), s).

Definition get_vectorizer : M (option artifact) :=
  fun s => (Ok (_vectorizer s), s).

Definition set_loaded_model (m : artifact) : M unit :=
  fun s => (Ok tt, Store (Some m) (_vectorizer s)).

Definition set_vectorizer (v : artifact) : M unit :=
  fun s => (Ok tt, Store (_loaded_model s) (Some v)).

(** [with _artifact_lock: body] as one caller running alone sees it: the
    lock is free when the block is entered and is released when the body
    returns and when it raises, so the block leaves only what its body
    does.  The lock itself is in the interleaving semantics below. *)
Definition with_lock {A} (body : M A) : M A := body.

(** ** Artifact loading *)

(** [with open(path, "rb") as f: ... pickle.load(f)] *)
Definition pickle_load (fs : filesystem) (path : pystr) : M artifact :=
  lift (fs path).

Definition is_None {A} (o : option A) : bool :=
  match o with None => true | Some _ => false end.

(** The load state, as every handler computes it:
    [bool(_loaded_model is not None and _vectorizer is not None)]. *)
Definition is_loaded (s : store) : bool :=
  negb (is_None (_loaded_model s)) && negb (is_None (_vectorizer s)).

Definition get_is_loaded : M bool := fun s => (Ok (is_loaded s), s).

Definition _load_artifacts_once (fs : filesystem) : M unit :=
  m0 ← get_loaded_model;
  v0 ← get_vectorizer;
  if negb (is_None m0) && negb (is_None v0) then mret tt
  else
    with_lock (
      m1 ← get_loaded_model;
      v1 ← get_vectorizer;
      if is_None m1 || is_None v1 then
        m ← pickle_load fs MODEL_PATH;
        set_loaded_model m ;;
        v ← pickle_load fs VECTORIZER_PATH;
        set_vectorizer v
      else mret tt).

(** ** Inference *)

(** [obj.transform(docs)]; on [None] the attribute lookup fails. *)
Definition call_transform (obj : option artifact) (docs : list pystr)
  : result features :=
  match obj with
  | Some a => transform a docs
  | None => Raise AttributeError
  end.

(** [obj.predict(X)] *)
Definition call_predict (obj : option artifact) (X : features)
  : result (list pyval) :=
  match obj with
  | Some a => predict a X
  | None => Raise AttributeError
  end.

(** [pred[0]] *)
Definition getitem0 (pred : list pyval) : result pyval :=
  match pred !! 0%nat with
  | Some val => Ok val
  | None => Raise IndexError
  end.

(** [str(val.item() if hasattr(val, "item") else val)] *)
Definition normalize_label (val : pyval) : result pystr :=
  match (if hasattr_item val then call_item val else Ok val) with
  | Ok val_py => Ok (py_str val_py)
  | Raise e => Raise e
  end.

Definition _predict_text (fs : filesystem) (message : pystr) : M pystr :=
  _load_artifacts_once fs ;;
  v ← get_vectorizer;
  X ← lift (call_transform v [message]);
  m ← get_loaded_model;
  pred ← lift (call_predict m X);
  val ← lift (getitem0 pred);
  lift (normalize_label val).

(** What [_predict_text] computes from the classifier [m] and the
    vectorizer [v] once both are at hand. *)
Definition infer (m v : artifact) (message : pystr) : result pystr :=
  match transform v [message] with
  | Raise e => Raise e
  | Ok X =>
      match predict m X with
      | Raise e => Raise e
      | Ok pred =>
          match getitem0 pred with
          | Raise e => Raise e
          | Ok val => normalize_label val
          end
      end
  end.

(** ** Warm-up *)

(** The body of the start-up thread: a failed load is logged and dropped. *)
Definition _eager_load_background (fs : filesystem) : M unit :=
  try_except (_load_artifacts_once fs) (fun _ => mret tt).

(** ** HTTP handlers *)

(** What a handler hands to Flask: [jsonify(j)] or
    [render_template_string(DEMO_HTML, model_loaded=..., model_path=...,
    prediction=..., error=...)], kept as the template's arguments. *)
Inductive body :=
| JsonBody (j : json)
| HtmlBody (model_loaded : bool) (model_path : pystr)
           (prediction : option pystr) (error : option pystr).

Record response := Response {
  resp_body : body;
  resp_status : Z;
}.

Definition msg_required : pystr :=
  of_string "Field 'message' is required and must be non-empty.".

Definition msg_not_found : pystr :=
  of_string "Model artifacts not found on server.".

Definition msg_failed : pystr := of_string "Inference failed.".

Definition json_error (msg : pystr) : body :=
  JsonBody (JObj [(of_string "error", JStr msg)]).

(** [GET /] *)
Definition health : M response :=
  loaded ← get_is_loaded;
  mret (Response
          (JsonBody (JObj [(of_string "status", JStr (of_string "ok"));
                           (of_string "model_loaded", JBool loaded);
                           (of_string "model_path", JStr MODEL_PATH);
                           (of_string "vectorizer_path", JStr VECTORIZER_PATH)]))
          200).

(** [GET /demo]; a handler that returns no status answers 200. *)
Definition demo : M response :=
  loaded ← get_is_loaded;
  mret (Response (HtmlBody loaded MODEL_PATH None None) 200).

(** [POST /predict-form]; [form_message] is [request.form.get("message")].
    The successful return names no status and is answered 200. *)
Definition predict_form (fs : filesystem) (form_message : option pystr)
  : M response :=
  let message :=
    strip (match form_message with
           | Some m => if str_truthy m then m else []
           | None => []
           end) in
  if negb (str_truthy message) then
    loaded ← get_is_loaded;
    mret (Response (HtmlBody loaded MODEL_PATH None (Some msg_required)) 400)
  else
    try_except
      (label ← _predict_text fs message;
       mret (Response (HtmlBody true MODEL_PATH (Some label) None) 200))
      (fun e =>
         if is_FileNotFoundError e then
           mret (Response (HtmlBody false MODEL_PATH None (Some msg_not_found))
                          503)
         else
           loaded ← get_is_loaded;
           mret (Response (HtmlBody loaded MODEL_PATH None (Some msg_failed))
                          500)).

(** [data.get("message", "")]: only a [dict] has the method. *)
Definition get_message (data : json) : result json :=
  match data with
  | JObj kv => Ok (default (JStr []) (dict_get (of_string "message") kv))
  | _ => Raise AttributeError
  end.

(** [POST /predict]; [parsed] is [request.get_json(silent=True)], [None]
    when the body is absent or is not JSON. *)
Definition predict_json (fs : filesystem) (parsed : option json)
  : M response :=
  let data :=
    match parsed with
    | Some j => if json_truthy j then j else JObj []
    | None => JObj []
    end in
  field ← lift (get_message data);
  let message := strip (json_str field) in
  if negb (str_truthy message) then
    mret (Response (json_error msg_required) 400)
  else
    try_except
      (label ← _predict_text fs message;
       mret (Response (JsonBody (JObj [(of_string "label", JStr label)])) 200))
      (fun e =>
         if is_FileNotFoundError e then
           mret (Response (json_error msg_not_found) 503)
         else mret (Response (json_error msg_failed) 500)).

(** ** Operations on the store *)

(** Everything in the module that can touch the globals. *)
Inductive operation :=
| EnsureLoaded
| Predict (message : pystr)
| WarmUp
| GetHealth
| GetDemo
| PostPredictForm (form_message : option pystr)
| PostPredict (parsed : option json).

(** Run one operation against the files as they are at that moment and
    keep the globals it leaves. *)
Definition run_operation (fs : filesystem) (op : operation) (s : store)
  : store :=
  match op with
  | EnsureLoaded => (_load_artifacts_once fs s).2
  | Predict message => (_predict_text fs message s).2
  | WarmUp => (_eager_load_background fs s).2
  | GetHealth => (health s).2
  | GetDemo => (demo s).2
  | PostPredictForm m => (predict_form fs m s).2
  | PostPredict j => (predict_json fs j s).2
  end.


(** The states the process can be in: the vectorizer is assigned only
    after the classifier. *)
Definition store_ok (s : store) : Prop :=
  _vectorizer s <> None -> _loaded_model s <> None.

(** ** Several threads inside [_load_artifacts_once]

    Each caller is a thread with a program point in the function.  A step
    is one read of a global, one lock operation, or one file load with its
    assignment.  The scheduler picks which thread moves. *)

Inductive pc :=
| AtFastModel                    (* line 34, reads [_loaded_model] *)
| AtFastVectorizer               (* line 34 after [and], reads [_vectorizer] *)
| AtAcquire                      (* line 36, entering [with _artifact_lock] *)
| AtCheckModel                   (* line 37, reads [_loaded_model] *)
| AtCheckVectorizer              (* line 37 after [or], reads [_vectorizer] *)
| AtLoadModel                    (* lines 40-41 *)
| AtLoadVectorizer               (* lines 42-43 *)
| AtRelease (pending : option exn) (* leaving the [with] block *)
| Returned
| Raised (e : exn).

Record process := Process {
  globals : store;
  (* [None] when the lock is free, else the thread that acquired it *)
  _artifact_lock : option nat;
  threads : list pc;
  (* ghost: how many times lines 40-41 and lines 42-43 have run *)
  model_reads : nat;
  vectorizer_reads : nat;
}.

(** [n] callers enter the function with the globals [s]. *)
Definition start (n : nat) (s : store) : process :=
  Process s None (replicate n AtFastModel) 0 0.

Definition goto (i : nat) (next : pc) (p : process) : process :=
  Process (globals p) (_artifact_lock p) (<[i := next]> (threads p))
          (model_reads p) (vectorizer_reads p).

(** One step of thread [i], or [None] when it cannot move: it has left the
    function, it waits for the lock, or there is no such thread. *)
Definition thread_step (fs : filesystem) (i : nat) (p : process)
  : option process :=
  let g := globals p in
  match threads p !! i with
  | None => None
  | Some AtFastModel =>
      Some (goto i (if is_None (_loaded_model g) then AtAcquire
                    else AtFastVectorizer) p)
  | Some AtFastVectorizer =>
      Some (goto i (if is_None (_vectorizer g) then AtAcquire
                    else Returned) p)
  | Some AtAcquire =>
      match _artifact_lock p with
      | Some _ => None
      | None => Some (Process g (Some i) (<[i := AtCheckModel]> (threads p))
                              (model_reads p) (vectorizer_reads p))
      end
  | Some AtCheckModel =>
      Some (goto i (if is_None (_loaded_model g) then AtLoadModel
                    else AtCheckVectorizer) p)
  | Some AtCheckVectorizer =>
      Some (goto i (if is_None (_vectorizer g) then AtLoadModel
                    else AtRelease None) p)
  | Some AtLoadModel =>
      Some (match fs MODEL_PATH with
            | Ok m =>
                Process (Store (Some m) (_vectorizer g)) (_artifact_lock p)
                        (<[i := AtLoadVectorizer]> (threads p))
                        (S (model_reads p)) (vectorizer_reads p)
            | Raise e =>
                Process g (_artifact_lock p)
                        (<[i := AtRelease (Some e)]> (threads p))
                        (S (model_reads p)) (vectorizer_reads p)
            end)
  | Some AtLoadVectorizer =>
      Some (match fs VECTORIZER_PATH with
            | Ok v =>
                Process (Store (_loaded_model g) (Some v)) (_artifact_lock p)
                        (<[i := AtRelease None]> (threads p))
                        (model_reads p) (S (vectorizer_reads p))
            | Raise e =>
                Process g (_artifact_lock p)
                        (<[i := AtRelease (Some e)]> (threads p))
                        (model_reads p) (S (vectorizer_reads p))
            end)
  | Some (AtRelease pending) =>
      Some (Process g None
                    (<[i := match pending with
                            | None => Returned
                            | Some e => Raised e
                            end]> (threads p))
                    (model_reads p) (vectorizer_reads p))
  | Some Returned | Some (Raised _) => None
  end.

(** Run a schedule: at each turn the files of that moment and the thread
    chosen to move; a thread that cannot move loses its turn. *)
Fixpoint run (sched : list (filesystem * nat)) (p : process) : process :=
  match sched with
  | [] => p
  | (fs, i) :: sched' => run sched' (default p (thread_step fs i p))
  end.

Definition finished (c : pc) : bool :=
  match c with Returned | Raised _ => true | _ => false end.

(** The program points between acquiring and releasing the lock. *)
Definition in_critical (c : pc) : bool :=
  match c with
  | AtCheckModel | AtCheckVectorizer | AtLoadModel | AtLoadVectorizer
  | AtRelease _ => true
  | _ => false
  end.




(** What holds of the globals while a thread is at a program point. *)
Definition pc_ok (g : store) (c : pc) : Prop :=
  match c with
  | AtCheckVectorizer => _loaded_model g <> None
  | AtLoadModel => _vectorizer g = None
  | AtLoadVectorizer => _loaded_model g <> None /\ _vectorizer g = None
  | AtRelease None => is_loaded g = true
  | AtRelease (Some _) => _vectorizer g = None
  | Returned => is_loaded g = true
  | _ => True
  end.

(** The invariant of the interleaving semantics: the lock is held by the
    one thread between acquire and release, and every thread's program
    point agrees with the globals. *)
Definition inv (p : process) : Prop :=
  store_ok (globals p) /\
  (forall j c, threads p !! j = Some c ->
               in_critical c = true <-> _artifact_lock p = Some j) /\
  (forall j, _artifact_lock p = Some j -> (j < List.length (threads p))%nat) /\
  (forall j c, threads p !! j = Some c -> pc_ok (globals p) c).



End Application.

(** ** A concrete deployment

    Small artifacts and file systems on which the definitions above can be
    evaluated. *)

(** [repr] of the empty list and the empty dict, the only containers the
    examples use. *)
Definition demo_repr (j : json) : pystr :=
  match j with
  | JArr _ => of_string "[]"
  | _ => of_string "{}"
  end.

Definition demo_runtime : Runtime := {|
  MODEL_PATH := of_string "basic_classifier.pkl";
  VECTORIZER_PATH := of_string "count_vectorizer.pkl";
  features := list nat;
  py_repr := demo_repr;
|}.

(** A vectorizer counting the code points of each document. *)
Definition demo_vectorizer : @artifact demo_runtime :=
  @Artifact demo_runtime
    (fun docs => Ok (map (fun doc : pystr => List.length doc) docs))
    (fun _ => Raise AttributeError).

(** A classifier answering the numpy scalar 1 for odd counts, 0 for even. *)
Definition demo_model : @artifact demo_runtime :=
  @Artifact demo_runtime
    (fun _ => Raise AttributeError)
    (fun X => Ok (map (fun n : nat => np_int64 (Z.of_nat n mod 2)) X)).

(** A classifier answering the native string "spam" for every row. *)
Definition demo_model_spam : @artifact demo_runtime :=
  @Artifact demo_runtime
    (fun _ => Raise AttributeError)
    (fun X => Ok (map (fun _ : nat => PyStr (of_string "spam")) X)).

(** Both files in place. *)
Definition fs_present : @filesystem demo_runtime :=
  fun path =>
    if decide (path = @MODEL_PATH demo_runtime) then Ok demo_model
    else if decide (path = @VECTORIZER_PATH demo_runtime) then Ok demo_vectorizer
    else Raise FileNotFoundError.

(** Both files in place, the classifier being the other one. *)
Definition fs_present_spam : @filesystem demo_runtime :=
  fun path =>
    if decide (path = @MODEL_PATH demo_runtime) then Ok demo_model_spam
    else if decide (path = @VECTORIZER_PATH demo_runtime) then Ok demo_vectorizer
    else Raise FileNotFoundError.

(** No file at either path. *)
Definition fs_missing : @filesystem demo_runtime :=
  fun _ => Raise FileNotFoundError.




Definition hello : pystr := of_string "hello".

(** The body [{"message": v}]. *)
Definition message_body (v : json) : option json :=
  Some (JObj [(of_string "message", v)]).

(** ** The demo page

    The part of [DEMO_HTML] that depends on the template's arguments
    (lines 172-189): the result block, the error block and the load mark.
    Values are kept as the template receives them, before HTML escaping. *)

Inductive result_block :=
| FakeNews                      (* [prediction == '1'] *)
| RealNews                      (* [prediction == '0'] *)
| Prediction (label : pystr).   (* any other non-empty label *)

Record page := Page {
  page_result : option result_block;
  page_error : option pystr;
  page_loaded_mark : bool;
  page_model_path : pystr;
}.

(** [{% if prediction %} ... {% endif %}] *)
Definition render_result (prediction : option pystr) : option result_block :=
  match prediction with
  | Some p =>
      if str_truthy p then
        Some (if decide (p = of_string "1") then FakeNews
              else if decide (p = of_string "0") then RealNews
              else Prediction p)
      else None
  | None => None
  end.

(** [{% if error %} ... {% endif %}] *)
Definition render_error (error : option pystr) : option pystr :=
  match error with
  | Some e => if str_truthy e then Some e else None
  | None => None
  end.

(** [render_template_string(DEMO_HTML, ...)] on what a handler returned;
    a JSON body is not a page. *)
Definition render (b : body) : option page :=
  match b with
  | HtmlBody model_loaded model_path prediction error =>
      Some (Page (render_result prediction) (render_error error)
                 model_loaded model_path)
  | JsonBody _ => None
  end.

(** ** Path resolution (lines 16-18) *)

(** [os.getenv(name) or fallback], [value] being [os.getenv(name)]. *)
Definition getenv_or (value : option pystr) (fallback : pystr) : pystr :=
  match value with
  | Some v => if str_truthy v then v else fallback
  | None => fallback
  end.

(** [os.path.join(a, b)] on a POSIX system; 47 is the code point of
    the separator. *)
Definition path_join (a b : pystr) : pystr :=
  if decide (head b = Some 47%N) then b
  else if decide (a = [] \/ last a = Some 47%N) then a ++ b
  else a ++ 47%N :: b.

(** [MODEL_PATH] and [VECTORIZER_PATH] as the module computes them from
    the directory of the file and the two environment variables. *)
Definition resolve_model_path (BASE_DIR : pystr) (env : option pystr)
  : pystr :=
  getenv_or env (path_join BASE_DIR (of_string "basic_classifier.pkl")).

Definition resolve_vectorizer_path (BASE_DIR : pystr) (env : option pystr)
  : pystr :=
  getenv_or env (path_join BASE_DIR (of_string "count_vectorizer.pkl")).

(** ** Counting file reads per caller *)

(** 1 for a caller past lines 40-41, whether it ran them or left the
    function without them; 0 for a caller still before them. *)
Definition past_model_read (c : pc) : nat :=
  match c with
  | AtLoadVectorizer | AtRelease _ | Returned | Raised _ => 1
  | _ => 0
  end.

(** 1 for a caller that has read the classifier and is about to read the
    vectorizer. *)
Definition at_vectorizer_read (c : pc) : nat :=
  match c with
  | AtLoadVectorizer => 1
  | _ => 0
  end.

(** ** More artifacts for the concrete deployment *)


(** A classifier whose [predict] raises [FileNotFoundError] itself. *)
Definition demo_model_fnf : @artifact demo_runtime :=
  @Artifact demo_runtime
    (fun _ => Raise AttributeError)
    (fun _ => Raise FileNotFoundError).

(** * Properties *)

Section Properties.
Context `{Runtime}.

(** ** The loader, case by case *)

Lemma load_cases (fs : filesystem) (s : store) :
  _load_artifacts_once fs s =
  if is_loaded s then (Ok tt, s)
  else match fs MODEL_PATH with
       | Raise e => (Raise e, s)
       | Ok m =>
           match fs VECTORIZER_PATH with
           | Raise e => (Raise e, Store (Some m) (_vectorizer s))
           | Ok v => (Ok tt, Store (Some m) (Some v))
           end
       end.
Proof.
  destruct s as [[m0|] [v0|]];
    cbv [_load_artifacts_once with_lock pickle_load lift mbind M_bind mret
         M_ret get_loaded_model get_vectorizer set_loaded_model
         set_vectorizer is_loaded is_None negb andb orb _loaded_model
         _vectorizer];
    try reflexivity;
    destruct (fs MODEL_PATH); try reflexivity;
    destruct (fs VECTORIZER_PATH); reflexivity.
Qed.

Lemma is_loaded_spec (s : store) :
  is_loaded s = true <->
  exists m v, _loaded_model s = Some m /\ _vectorizer s = Some v.
Proof.
  destruct s as [[m|] [v|]]; cbn; split; try discriminate; eauto;
    intros (? & ? & ? & ?); discriminate.
Qed.

Lemma load_loaded (fs : filesystem) (s : store) :
  is_loaded s = true -> _load_artifacts_once fs s = (Ok tt, s).
Proof. intros Hl. rewrite load_cases, Hl. reflexivity. Qed.

Lemma load_ok_loaded (fs : filesystem) (s s' : store) :
  _load_artifacts_once fs s = (Ok tt, s') -> is_loaded s' = true.
Proof.
  rewrite load_cases. destruct (is_loaded s) eqn:Hl.
  - intros [= <-]. exact Hl.
  - destruct (fs MODEL_PATH); [|discriminate].
    destruct (fs VECTORIZER_PATH); [|discriminate].
    intros [= <-]. reflexivity.
Qed.


Lemma predict_text_cases (fs : filesystem) (message : pystr) (s : store) :
  _predict_text fs message s =
  match _load_artifacts_once fs s with
  | (Raise e, s') => (Raise e, s')
  | (Ok _, s') =>
      (match _loaded_model s', _vectorizer s' with
       | Some m, Some v => infer m v message
       | _, _ => Raise AttributeError
       end, s')
  end.
Proof.
  unfold _predict_text. cbv [mbind M_bind].
  destruct (_load_artifacts_once fs s) as [[[]|e] s'] eqn:Hload;
    [|reflexivity].
  apply load_ok_loaded in Hload.
  apply is_loaded_spec in Hload as (m & v & Hm & Hv).
  cbv [get_vectorizer get_loaded_model lift infer]. rewrite Hm, Hv. cbn.
  destruct (transform v [message]); [|reflexivity].
  destruct (predict m a); [|reflexivity].
  destruct (getitem0 a0); [|reflexivity].
  destruct (normalize_label a1); reflexivity.
Qed.

Lemma predict_text_store (fs : filesystem) (message : pystr) (s : store) :
  (_predict_text fs message s).2 = (_load_artifacts_once fs s).2.
Proof.
  rewrite predict_text_cases.
  destruct (_load_artifacts_once fs s) as [[[]|e] s']; reflexivity.
Qed.

Lemma predict_text_loaded (fs : filesystem) (message : pystr) (s : store)
    (m v : artifact) :
  _loaded_model s = Some m -> _vectorizer s = Some v ->
  _predict_text fs message s = (infer m v message, s).
Proof.
  intros Hm Hv. rewrite predict_text_cases, load_loaded.
  - rewrite Hm, Hv. reflexivity.
  - apply is_loaded_spec. eauto.
Qed.

(** ** The handlers, case by case *)

Lemma predict_json_object (fs : filesystem) (kv : list (pystr * json))
    (s : store) :
  predict_json fs (Some (JObj kv)) s =
  let message :=
    strip (json_str (default (JStr []) (dict_get (of_string "message") kv))) in
  if str_truthy message then
    match _predict_text fs message s with
    | (Ok label, s') =>
        (Ok (Response (JsonBody (JObj [(of_string "label", JStr label)])) 200),
         s')
    | (Raise e, s') =>
        (Ok (if is_FileNotFoundError e
             then Response (json_error msg_not_found) 503
             else Response (json_error msg_failed) 500), s')
    end
  else (Ok (Response (json_error msg_required) 400), s).
Proof.
  assert (Hdata : (if json_truthy (JObj kv) then JObj kv else JObj [])
                  = JObj kv) by (destruct kv; reflexivity).
  unfold predict_json. rewrite Hdata.
  cbv [mbind M_bind lift get_message try_except mret M_ret].
  cbv zeta.
  destruct (str_truthy _); [|reflexivity]. cbn [negb].
  destruct (_predict_text fs _ s) as [[label|e] s']; [reflexivity|].
  destruct (is_FileNotFoundError e); reflexivity.
Qed.

Lemma predict_json_no_object (fs : filesystem) (parsed : option json)
    (s : store) :
  match parsed with Some j => json_truthy j = false | None => True end ->
  predict_json fs parsed s = predict_json fs (Some (JObj [])) s.
Proof.
  intros Hp. unfold predict_json. destruct parsed as [j|]; [|reflexivity].
  rewrite Hp. reflexivity.
Qed.

Lemma predict_form_cases (fs : filesystem) (form_message : option pystr)
    (s : store) :
  predict_form fs form_message s =
  let message := strip (default [] form_message) in
  if str_truthy message then
    match _predict_text fs message s with
    | (Ok label, s') =>
        (Ok (Response (HtmlBody true MODEL_PATH (Some label) None) 200), s')
    | (Raise e, s') =>
        (Ok (if is_FileNotFoundError e
             then Response (HtmlBody false MODEL_PATH None
                                     (Some msg_not_found)) 503
             else Response (HtmlBody (is_loaded s') MODEL_PATH None
                                     (Some msg_failed)) 500), s')
    end
  else (Ok (Response (HtmlBody (is_loaded s) MODEL_PATH None
                               (Some msg_required)) 400), s).
Proof.
  assert (Hm : match form_message with
               | Some m => if str_truthy m then m else []
               | None => []
               end = default [] form_message)
    by (destruct form_message as [[|c m]|]; reflexivity).
  unfold predict_form. rewrite Hm.
  cbv [mbind M_bind try_except mret M_ret get_is_loaded]. cbv zeta.
  destruct (str_truthy _); [|reflexivity]. cbn [negb].
  destruct (_predict_text fs _ s) as [[label|e] s']; [reflexivity|].
  destruct (is_FileNotFoundError e); reflexivity.
Qed.

(** ** What an operation does to the globals *)


(** Whatever the operation, the globals change as the loader changes
    them, or not at all. *)
Lemma operation_store (fs : filesystem) (op : operation) (s : store) :
  run_operation fs op s = s \/
  run_operation fs op s = (_load_artifacts_once fs s).2.
Proof.
  destruct op as [|message| | | |form_message|parsed]; cbn [run_operation].
  - by right.
  - right. apply predict_text_store.
  - right. unfold _eager_load_background, try_except.
    destruct (_load_artifacts_once fs s) as [[[]|e] s']; reflexivity.
  - by left.
  - by left.
  - rewrite predict_form_cases. cbv zeta.
    destruct (str_truthy _); [|by left]. right.
    rewrite <- (predict_text_store fs (strip (default [] form_message)) s).
    destruct (_predict_text fs _ s) as [[label|e] s']; reflexivity.
  - destruct parsed as [j|].
    + destruct (json_truthy j) eqn:Hj.
      * destruct j as [|b|z|str|l|kv];
          try (left; unfold predict_json; rewrite Hj; reflexivity).
        rewrite predict_json_object. cbv zeta.
        destruct (str_truthy _); [|by left]. right.
        rewrite <- (predict_text_store fs
          (strip (json_str (default (JStr [])
                              (dict_get (of_string "message") kv)))) s).
        destruct (_predict_text fs _ s) as [[label|e] s']; reflexivity.
      * left. rewrite predict_json_no_object by exact Hj.
        rewrite predict_json_object. reflexivity.
    + left. rewrite predict_json_no_object by exact I.
      rewrite predict_json_object. reflexivity.
Qed.





Lemma initial_store_ok : store_ok initial_store.
Proof. intros Hv. by destruct Hv. Qed.

Lemma operation_loaded (fs : filesystem) (op : operation) (s : store) :
  is_loaded s = true -> run_operation fs op s = s.
Proof.
  intros Hl. destruct (operation_store fs op s) as [->| ->]; [done|].
  by rewrite load_loaded.
Qed.




(** ** The artifact store *)




(** ** Inference *)

(** C6. With the artifacts at hand, [_predict_text] transforms the one
    message, takes element 0 of the prediction and returns its string: for
    a value with an [item] attribute the string of what [item()] returns,
    for any other value the string of the value itself, whatever the
    value is. *)
Theorem predict_text_label (fs : filesystem) (s s1 : store)
    (message : pystr) (m v : artifact) (X : features) (pred : list pyval)
    (val : pyval) :
  _load_artifacts_once fs s = (Ok tt, s1) ->
  _loaded_model s1 = Some m -> _vectorizer s1 = Some v ->
  transform v [message] = Ok X ->
  predict m X = Ok pred ->
  pred !! 0%nat = Some val ->
  _predict_text fs message s =
  (if hasattr_item val then
     match call_item val with
     | Ok native => Ok (py_str native)
     | Raise e => Raise e
     end
   else Ok (py_str val), s1).
Proof.
  intros Hload Hm Hv HX Hpred Hval.
  rewrite predict_text_cases, Hload, Hm, Hv.
  unfold infer, getitem0, normalize_label. rewrite HX, Hpred, Hval.
  destruct (hasattr_item val); [|reflexivity].
  destruct (call_item val); reflexivity.
Qed.

(** C8. With the artifacts fixed as functions of their input, a second
    call of [_predict_text] on the same text gives what the first gave and
    leaves the globals as the first left them: always when the store is
    already loaded, and whenever the first call returned a label. The
    files at the time of either call make no difference. *)
Theorem predict_text_repeatable (fs1 fs2 : filesystem) (message : pystr)
    (s : store) :
  let r1 := (_predict_text fs1 message s).1 in
  let s1 := (_predict_text fs1 message s).2 in
  (is_loaded s = true ->
   s1 = s /\ _predict_text fs2 message s1 = (r1, s1)) /\
  (forall label, r1 = Ok label ->
                 _predict_text fs2 message s1 = (Ok label, s1)).
Proof.
  cbv zeta. split.
  - intros Hl. destruct (proj1 (is_loaded_spec s) Hl) as (m & v & Hm & Hv).
    rewrite (predict_text_loaded fs1 message s m v Hm Hv). cbn.
    split; [reflexivity|]. apply predict_text_loaded; assumption.
  - intros label. rewrite predict_text_cases.
    destruct (_load_artifacts_once fs1 s) as [[[]|e] s1] eqn:Hload;
      [|discriminate].
    apply load_ok_loaded in Hload.
    destruct (proj1 (is_loaded_spec s1) Hload) as (m & v & Hm & Hv).
    rewrite Hm, Hv. cbn. intros Hr.
    rewrite (predict_text_loaded fs2 message s1 m v Hm Hv), Hr.
    reflexivity.
Qed.

(** ** The HTTP surface *)

(** C9. [GET /] answers 200 with the four fields, [model_loaded] being
    the load state, in every state of the globals, which it leaves
    alone. *)
Theorem health_always_ok (s : store) :
  health s =
  (Ok (Response
         (JsonBody (JObj [(of_string "status", JStr (of_string "ok"));
                          (of_string "model_loaded", JBool (is_loaded s));
                          (of_string "model_path", JStr MODEL_PATH);
                          (of_string "vectorizer_path",
                           JStr VECTORIZER_PATH)]))
         200), s) /\
  (is_loaded s = true <->
   _loaded_model s <> None /\ _vectorizer s <> None).
Proof.
  split; [reflexivity|].
  destruct s as [[m|] [v|]]; cbn; split; try done; intros [? ?]; done.
Qed.

Lemma dict_get_message_body (v : json) :
  dict_get (of_string "message") [(of_string "message", v)] = Some v.
Proof. cbn [dict_get]. by rewrite decide_True. Qed.

Lemma str_truthy_nonempty (m : pystr) : str_truthy m = true <-> m <> [].
Proof. destruct m; cbn; split; done. Qed.



(** C5 (amended). [POST /predict] answers 400 with
    [{"error": "Field 'message' is required and must be non-empty."}],
    leaving the globals alone, when the body is absent or not JSON, is a
    falsy JSON value such as [{}], or is an object whose [message] is
    missing or has an empty string form after trimming. For an object
    whose [message] passes, it answers 200 with [{"label": label}] when
    [_predict_text] returns [label]; 503 with "Model artifacts not found
    on server." when [_predict_text] raises [FileNotFoundError], whether
    the load or the artifacts raised it; and 500 with "Inference failed."
    when it raises anything else. *)
Theorem predict_json_statuses (fs : filesystem) (s : store) :
  (forall parsed : option json,
     parsed = None \/
     (exists j, parsed = Some j /\ json_truthy j = false) \/
     (exists kv, parsed = Some (JObj kv) /\
        (dict_get (of_string "message") kv = None \/
         exists v, dict_get (of_string "message") kv = Some v /\
                   strip (json_str v) = [])) ->
     predict_json fs parsed s =
     (Ok (Response (json_error msg_required) 400), s)) /\
  (forall (kv : list (pystr * json)) (v : json),
     dict_get (of_string "message") kv = Some v ->
     strip (json_str v) <> [] ->
     match _predict_text fs (strip (json_str v)) s with
     | (Ok label, s') =>
         predict_json fs (Some (JObj kv)) s =
         (Ok (Response (JsonBody (JObj [(of_string "label", JStr label)]))
                       200), s')
     | (Raise e, s') =>
         predict_json fs (Some (JObj kv)) s =
         (Ok (if is_FileNotFoundError e
              then Response (json_error msg_not_found) 503
              else Response (json_error msg_failed) 500), s')
     end).
Proof.
  split.
  - intros parsed [->|[(j & -> & Hj)|(kv & -> & Hkv)]].
    + rewrite predict_json_no_object by exact I.
      by rewrite predict_json_object.
    + rewrite predict_json_no_object by exact Hj.
      by rewrite predict_json_object.
    + rewrite predict_json_object. cbv zeta.
      destruct Hkv as [->|(v & -> & Hv)]; cbn [from_option id json_str].
      * reflexivity.
      * by rewrite Hv.
  - intros kv v Hget Hne. rewrite predict_json_object, Hget.
    cbn [from_option id]. cbv zeta.
    rewrite (proj2 (str_truthy_nonempty _) Hne).
    destruct (_predict_text fs _ s) as [[label|e] s']; reflexivity.
Qed.

(** C10. [POST /predict] takes [str] of the [message] value, whatever its
    JSON type, then trims it: [null] reads "None" and [0] reads "0". When
    the trimmed string form is non-empty the request is not answered 400:
    [_predict_text] is called on that trimmed string form and its outcome
    decides between 200, 503 and 500. An absent or non-JSON body is
    handled as [{}] and answered 400. *)
Theorem predict_json_stringifies :
  json_str JNull = of_string "None" /\
  json_str (JInt 0) = of_string "0" /\
  (forall (fs : filesystem) (s : store),
     predict_json fs None s = predict_json fs (Some (JObj [])) s /\
     predict_json fs None s =
     (Ok (Response (json_error msg_required) 400), s)) /\
  (forall (fs : filesystem) (s : store) (kv : list (pystr * json))
          (v : json),
     dict_get (of_string "message") kv = Some v ->
     str_truthy (strip (json_str v)) = true ->
     exists resp,
       predict_json fs (Some (JObj kv)) s =
       (Ok resp, (_predict_text fs (strip (json_str v)) s).2) /\
       (resp_status resp <> 400)%Z /\
       match (_predict_text fs (strip (json_str v)) s).1 with
       | Ok label =>
           resp = Response (JsonBody (JObj [(of_string "label", JStr label)]))
                           200
       | Raise e =>
           resp = if is_FileNotFoundError e
                  then Response (json_error msg_not_found) 503
                  else Response (json_error msg_failed) 500
       end).
Proof.
  do 2 (split; [reflexivity|]). split.
  - intros fs s. rewrite predict_json_no_object by exact I.
    split; [reflexivity|]. by rewrite predict_json_object.
  - intros fs s kv v Hget Hne. rewrite predict_json_object, Hget.
    cbn [from_option id]. cbv zeta. rewrite Hne.
    destruct (_predict_text fs _ s) as [[label|e] s']; cbn [fst snd].
    + eexists. split; [reflexivity|]. split; [|reflexivity]. cbn. lia.
    + eexists. split; [reflexivity|]. split; [|reflexivity].
      destruct (is_FileNotFoundError e); cbn; lia.
Qed.

(** ** Several callers at once *)

Lemma lookup_goto (l : list pc) (i j : nat) (c c' : pc) :
  (i < List.length l)%nat -> <[i := c]> l !! j = Some c' ->
  (j = i /\ c' = c) \/ (j <> i /\ l !! j = Some c').
Proof.
  intros Hlt. destruct (decide (j = i)) as [->|Hne].
  - rewrite list_lookup_insert_eq by exact Hlt. intros [= <-]. by left.
  - rewrite list_lookup_insert_ne by done. by right.
Qed.

Lemma not_loaded_of_no_vectorizer (g : store) :
  _vectorizer g = None -> is_loaded g = true -> False.
Proof. destruct g as [[m|] [v|]]; cbn; done. Qed.

Lemma is_loaded_intro (g : store) :
  _loaded_model g <> None -> _vectorizer g <> None -> is_loaded g = true.
Proof. destruct g as [[m|] [v|]]; cbn; done. Qed.


Lemma critical_elsewhere (p : process) (i j : nat) (c : pc) :
  (forall j c, threads p !! j = Some c ->
               in_critical c = true <-> _artifact_lock p = Some j) ->
  _artifact_lock p = Some i -> j <> i -> threads p !! j = Some c ->
  in_critical c = false.
Proof.
  intros Hl Hi Hne Hj. destruct (in_critical c) eqn:Hc; [|done].
  apply (Hl j c Hj) in Hc. congruence.
Qed.

Lemma pc_ok_outside (g g' : store) (c : pc) :
  in_critical c = false -> (is_loaded g = true -> is_loaded g' = true) ->
  pc_ok g c -> pc_ok g' c.
Proof. destruct c; cbn; try done; auto. Qed.


Lemma step_inv (fs : filesystem) (i : nat) (p p' : process) :
  inv p -> thread_step fs i p = Some p' -> inv p'.
Proof.
  intros (Hs & Hl & Hh & Hpc). unfold thread_step.
  destruct (threads p !! i) as [c|] eqn:Hi; [|done].
  pose proof (lookup_lt_Some _ _ _ Hi) as Hlt.
  pose proof (Hl i c Hi) as Hli. pose proof (Hpc i c Hi) as Hpci.
  destruct c; cbn in Hli, Hpci; try discriminate.
  - (* AtFastModel *)
    intros [= <-]. unfold inv, goto; cbn. rewrite length_insert.
    split_and!; try done; intros j c' Hj;
      apply (lookup_goto _ _ _ _ _ Hlt) in Hj as [[-> ->]|[Hne Hj]]; eauto;
      destruct (_loaded_model (globals p)); cbn; done.
  - (* AtFastVectorizer *)
    intros [= <-]. unfold inv, goto; cbn. rewrite length_insert.
    split_and!; try done; intros j c' Hj;
      apply (lookup_goto _ _ _ _ _ Hlt) in Hj as [[-> ->]|[Hne Hj]]; eauto.
    + destruct (_vectorizer (globals p)); cbn; exact Hli.
    + destruct (_vectorizer (globals p)) eqn:Hv; cbn; [|done].
      apply is_loaded_intro; [apply Hs|]; by rewrite Hv.
  - (* AtAcquire *)
    destruct (_artifact_lock p) eqn:Hfree; [done|].
    intros [= <-]. unfold inv; cbn. rewrite length_insert.
    split_and!; try done.
    + intros j c' Hj.
      apply (lookup_goto _ _ _ _ _ Hlt) in Hj as [[-> ->]|[Hne Hj]]; [done|].
      split; [|intros [= ->]; done].
      intros Hc. apply (Hl j c' Hj) in Hc. done.
    + intros j [= <-]. done.
    + intros j c' Hj.
      apply (lookup_goto _ _ _ _ _ Hlt) in Hj as [[-> ->]|[Hne Hj]]; eauto.
  - (* AtCheckModel *)
    intros [= <-]. unfold inv, goto; cbn. rewrite length_insert.
    split_and!; try done; intros j c' Hj;
      apply (lookup_goto _ _ _ _ _ Hlt) in Hj as [[-> ->]|[Hne Hj]]; eauto.
    + destruct (_loaded_model (globals p)); cbn; exact Hli.
    + destruct (_loaded_model (globals p)) eqn:Hm; cbn; [by rewrite Hm|].
      destruct (_vectorizer (globals p)) eqn:Hv; [|done].
      exfalso. apply Hs; [by rewrite Hv|done].
  - (* AtCheckVectorizer *)
    intros [= <-]. unfold inv, goto; cbn. rewrite length_insert.
    split_and!; try done; intros j c' Hj;
      apply (lookup_goto _ _ _ _ _ Hlt) in Hj as [[-> ->]|[Hne Hj]]; eauto.
    + destruct (_vectorizer (globals p)); cbn; exact Hli.
    + destruct (_vectorizer (globals p)) eqn:Hv; cbn; [|done].
      apply is_loaded_intro; [done|by rewrite Hv].
  - (* AtLoadModel *)
    intros [= <-].
    assert (Hlock : _artifact_lock p = Some i) by (by apply Hli).
    destruct (fs MODEL_PATH) as [m|e]; unfold inv; cbn;
      rewrite length_insert.
    + split_and!; try done.
      * intros j c' Hj.
        apply (lookup_goto _ _ _ _ _ Hlt) in Hj as [[-> ->]|[Hne Hj]]; eauto.
      * intros j c' Hj.
        apply (lookup_goto _ _ _ _ _ Hlt) in Hj as [[-> ->]|[Hne Hj]];
          [done|].
        apply (pc_ok_outside (globals p));
          eauto using critical_elsewhere.
        intros Hld. by destruct (not_loaded_of_no_vectorizer _ Hpci Hld).
    + split_and!; try done; intros j c' Hj;
        apply (lookup_goto _ _ _ _ _ Hlt) in Hj as [[-> ->]|[Hne Hj]]; eauto.
  - (* AtLoadVectorizer *)
    intros [= <-]. destruct Hpci as [Hm Hv].
    assert (Hlock : _artifact_lock p = Some i) by (by apply Hli).
    destruct (fs VECTORIZER_PATH) as [v|e]; unfold inv; cbn;
      rewrite length_insert.
    + split_and!; try done.
      * intros _. exact Hm.
      * intros j c' Hj.
        apply (lookup_goto _ _ _ _ _ Hlt) in Hj as [[-> ->]|[Hne Hj]]; eauto.
      * intros j c' Hj.
        apply (lookup_goto _ _ _ _ _ Hlt) in Hj as [[-> ->]|[Hne Hj]].
        -- cbn. by apply is_loaded_intro.
        -- apply (pc_ok_outside (globals p));
             eauto using critical_elsewhere.
           intros Hld. by destruct (not_loaded_of_no_vectorizer _ Hv Hld).
    + split_and!; try done; intros j c' Hj;
        apply (lookup_goto _ _ _ _ _ Hlt) in Hj as [[-> ->]|[Hne Hj]]; eauto.
  - (* AtRelease *)
    intros [= <-].
    assert (Hlock : _artifact_lock p = Some i) by (by apply Hli).
    unfold inv; cbn. rewrite length_insert.
    split_and!; try done.
    + intros j c' Hj.
      apply (lookup_goto _ _ _ _ _ Hlt) in Hj as [[-> ->]|[Hne Hj]].
      * destruct pending; cbn; split; done.
      * rewrite (critical_elsewhere p i j c' Hl Hlock Hne Hj). done.
    + intros j c' Hj.
      apply (lookup_goto _ _ _ _ _ Hlt) in Hj as [[-> ->]|[Hne Hj]]; eauto.
      destruct pending; cbn; done.
Qed.





Lemma start_inv (n : nat) (s : store) : store_ok s -> inv (start n s).
Proof.
  intros Hok. unfold inv, start; cbn. split_and!; try done.
  - intros j c [-> _]%lookup_replicate. done.
  - intros j c [-> _]%lookup_replicate. done.
Qed.


Lemma turn_inv (fs : filesystem) (i : nat) (p : process) :
  inv p -> inv (default p (thread_step fs i p)).
Proof.
  intros Hinv. destruct (thread_step fs i p) as [p'|] eqn:Hstep; [|done].
  by eapply step_inv.
Qed.

Lemma run_inv (sched : list (filesystem * nat)) (p : process) :
  inv p -> inv (run sched p).
Proof.
  revert p. induction sched as [|[fs i] sched IH]; intros p Hinv; [done|].
  cbn. by apply IH, turn_inv.
Qed.







Lemma run_length (sched : list (filesystem * nat)) (p : process) :
  List.length (threads (run sched p)) = List.length (threads p).
Proof.
  revert p. induction sched as [|[fs i] sched IH]; intros p; [done|].
  cbn. rewrite IH. unfold thread_step.
  destruct (threads p !! i) as [c|]; [|done].
  destruct c; cbn; try done.
  all: repeat match goal with
         | |- context [match ?x with _ => _ end] => destruct x
         end; cbn; by rewrite ?length_insert.
Qed.

(** One caller alone, the lock free: the interleaving semantics ends with
    the globals and the outcome of the sequential loader, and with the
    lock released on return and on exception. *)
Lemma solo_run (fs : filesystem) (s : store) :
  let p := run (replicate 8 (fs, 0%nat)) (start 1 s) in
  globals p = (_load_artifacts_once fs s).2 /\
  _artifact_lock p = None /\
  threads p = [match (_load_artifacts_once fs s).1 with
               | Ok _ => Returned
               | Raise e => Raised e
               end].
Proof.
  cbv zeta. rewrite load_cases.
  destruct s as [[m0|] [v0|]]; cbn;
    destruct (fs MODEL_PATH) as [m|e]; cbn; try done;
    destruct (fs VECTORIZER_PATH) as [v|e']; cbn; done.
Qed.


(** ** Trimming *)

Lemma lstrip_nil (s : pystr) :
  lstrip s = [] <-> Forall (fun c => py_isspace c = true) s.
Proof.
  induction s as [|c s IH]; cbn; [done|].
  destruct (py_isspace c) eqn:Hc.
  - rewrite IH. split; [by constructor|by inversion 1].
  - split; [done|]. inversion 1; congruence.
Qed.

Lemma lstrip_all_space (s : pystr) :
  Forall (fun c => py_isspace c = true) (lstrip s) <->
  Forall (fun c => py_isspace c = true) s.
Proof.
  induction s as [|c s IH]; cbn; [done|].
  destruct (py_isspace c) eqn:Hc; [|done].
  rewrite IH. split; [by constructor|by inversion 1].
Qed.

Lemma strip_nil (s : pystr) :
  strip s = [] <-> Forall (fun c => py_isspace c = true) s.
Proof.
  unfold strip, rstrip. rewrite <- lstrip_all_space.
  rewrite <- (Forall_reverse _ (lstrip s)), <- lstrip_nil.
  split; [|by intros ->].
  intros Hr. apply (f_equal reverse) in Hr.
  by rewrite reverse_involutive in Hr.
Qed.

Lemma str_truthy_strip (s : pystr) :
  str_truthy (strip s) = false <-> Forall (fun c => py_isspace c = true) s.
Proof.
  rewrite <- strip_nil. destruct (strip s); cbn; split; done.
Qed.

(** ** Validation *)

(** X1. A string message is rejected with 400 by [POST /predict] and by
    [POST /predict-form] exactly when every code point of it is
    whitespace; a rejected request reads no file and leaves the globals
    as they are. *)
Theorem blank_message_rejected (fs : filesystem) (s : store)
    (kv : list (pystr * json)) (m : pystr) :
  dict_get (of_string "message") kv = Some (JStr m) ->
  (Forall (fun c => py_isspace c = true) m <->
   predict_json fs (Some (JObj kv)) s
   = (Ok (Response (json_error msg_required) 400), s)) /\
  (Forall (fun c => py_isspace c = true) m <->
   predict_form fs (Some m) s
   = (Ok (Response (HtmlBody (is_loaded s) MODEL_PATH None
                             (Some msg_required)) 400), s)).
Proof.
  intros Hget. rewrite <- str_truthy_strip. split.
  - rewrite predict_json_object, Hget. cbn [from_option id json_str].
    cbv zeta. destruct (str_truthy (strip m)); [|done].
    split; [done|].
    destruct (_predict_text fs (strip m) s) as [[label|e] s'];
      [done|]. destruct (is_FileNotFoundError e); done.
  - rewrite predict_form_cases. cbn [from_option id]. cbv zeta.
    destruct (str_truthy (strip m)); [|done].
    split; [done|].
    destruct (_predict_text fs (strip m) s) as [[label|e] s'];
      [done|]. destruct (is_FileNotFoundError e); done.
Qed.

Lemma predict_text_ok_loaded (fs : filesystem) (message label : pystr)
    (s s' : store) :
  _predict_text fs message s = (Ok label, s') -> is_loaded s' = true.
Proof.
  rewrite predict_text_cases.
  destruct (_load_artifacts_once fs s) as [[[]|e] s1] eqn:Hload; [|done].
  intros [= _ <-]. by eapply load_ok_loaded.
Qed.

(** X2. [POST /predict] raises only [AttributeError], only for a truthy
    body that is not an object, and then leaves the globals alone. In
    every other case it answers with a one-field JSON object: [label]
    with status 200 and the store loaded, or [error] with status 400 (the
    globals untouched), 503 or 500. *)
Theorem predict_json_answers (fs : filesystem) (parsed : option json)
    (s : store) :
  ((exists j, parsed = Some j /\ json_truthy j = true /\
              forall kv, j <> JObj kv) /\
   predict_json fs parsed s = (Raise AttributeError, s)) \/
  (exists key text st s',
     predict_json fs parsed s
     = (Ok (Response (JsonBody (JObj [(key, JStr text)])) st), s') /\
     ((key = of_string "label" /\ st = 200%Z /\ is_loaded s' = true) \/
      (key = of_string "error" /\
       ((st = 400%Z /\ s' = s) \/ st = 503%Z \/ st = 500%Z)))).
Proof.
  assert (Hobj : forall kv,
    exists key text st s',
      predict_json fs (Some (JObj kv)) s
      = (Ok (Response (JsonBody (JObj [(key, JStr text)])) st), s') /\
      ((key = of_string "label" /\ st = 200%Z /\ is_loaded s' = true) \/
       (key = of_string "error" /\
        ((st = 400%Z /\ s' = s) \/ st = 503%Z \/ st = 500%Z)))).
  { intros kv. rewrite predict_json_object. cbv zeta.
    destruct (str_truthy _).
    - destruct (_predict_text fs _ s) as [[label|e] s'] eqn:Hpt.
      + do 4 eexists. split; [reflexivity|]. left.
        split_and!; try done. by eapply predict_text_ok_loaded.
      + destruct (is_FileNotFoundError e); do 4 eexists;
          (split; [reflexivity|]); right; split; auto.
    - do 4 eexists. split; [reflexivity|]. right. split; auto. }
  destruct parsed as [j|].
  - destruct (json_truthy j) eqn:Hj.
    + destruct j as [|b|z|str|l|kv]; try (right; apply Hobj);
        left; (split; [eexists; split_and!; done|]);
        unfold predict_json; rewrite Hj; reflexivity.
    + right. rewrite predict_json_no_object by exact Hj. apply Hobj.
  - right. rewrite predict_json_no_object by exact I. apply Hobj.
Qed.

(** X3. [POST /predict-form] never raises. It answers 200 with a page
    that has no error block, carries the load mark and leaves the store
    loaded, its result block missing only for an empty label; or it
    answers 400, 503 or 500 with a page that has an error block and no
    result block. The page always names [MODEL_PATH]. *)
Theorem predict_form_page (fs : filesystem) (form : option pystr)
    (s : store) :
  exists b st s' pg,
    predict_form fs form s = (Ok (Response b st), s') /\
    render b = Some pg /\
    page_model_path pg = MODEL_PATH /\
    ((st = 200%Z /\ page_error pg = None /\ page_loaded_mark pg = true /\
      is_loaded s' = true /\
      exists label, b = HtmlBody true MODEL_PATH (Some label) None /\
                    (page_result pg = None <-> label = [])) \/
     ((st = 400%Z \/ st = 503%Z \/ st = 500%Z) /\
      page_result pg = None /\ page_error pg <> None)).
Proof.
  rewrite predict_form_cases. cbv zeta.
  destruct (str_truthy _).
  - destruct (_predict_text fs _ s) as [[label|e] s'] eqn:Hpt.
    + do 4 eexists. split_and!; try reflexivity. left.
      split_and!; try done; [by eapply predict_text_ok_loaded|].
      exists label. split; [done|]. cbn.
      destruct label; cbn; [done|]. split; [|done].
      repeat case_decide; done.
    + destruct (is_FileNotFoundError e); do 4 eexists;
        (split_and!; try reflexivity); right; split_and!; auto; done.
  - do 4 eexists. split_and!; try reflexivity. right.
    split_and!; auto; done.
Qed.


(** X5. For one string message the JSON endpoint and the form endpoint
    agree: the same status, the same globals afterwards, and the same
    label or the same error text. *)
Theorem handlers_agree (fs : filesystem) (m : pystr) (s : store) :
  exists key text ml pred err st s',
    predict_json fs (message_body (JStr m)) s
    = (Ok (Response (JsonBody (JObj [(key, JStr text)])) st), s') /\
    predict_form fs (Some m) s
    = (Ok (Response (HtmlBody ml MODEL_PATH pred err) st), s') /\
    ((key = of_string "label" /\ pred = Some text /\ err = None) \/
     (key = of_string "error" /\ pred = None /\ err = Some text)).
Proof.
  unfold message_body.
  rewrite predict_json_object, dict_get_message_body, predict_form_cases.
  cbn [from_option id json_str]. cbv zeta.
  destruct (str_truthy (strip m)).
  - destruct (_predict_text fs (strip m) s) as [[label|e] s'].
    + do 7 eexists. split_and!; try reflexivity. by left.
    + destruct (is_FileNotFoundError e); do 7 eexists;
        (split_and!; try reflexivity); by right.
  - do 7 eexists. split_and!; try reflexivity. by right.
Qed.

(** X6. Once both handles are set no operation looks at the files: every
    handler and [_predict_text] answer the same whatever the files are,
    and no operation changes the globals. *)
Theorem loaded_ignores_files (fs1 fs2 : filesystem) (s : store) :
  is_loaded s = true ->
  (forall message,
     _predict_text fs1 message s = _predict_text fs2 message s) /\
  (forall parsed, predict_json fs1 parsed s = predict_json fs2 parsed s) /\
  (forall form, predict_form fs1 form s = predict_form fs2 form s) /\
  (forall op, run_operation fs1 op s = s).
Proof.
  intros Hl.
  assert (Hpt : forall message,
            _predict_text fs1 message s = _predict_text fs2 message s).
  { intros message.
    destruct (proj1 (is_loaded_spec s) Hl) as (m & v & Hm & Hv).
    by rewrite !(predict_text_loaded _ message s m v Hm Hv). }
  split_and!; [exact Hpt| | |intros op; by apply operation_loaded].
  - intros parsed. unfold predict_json.
    cbv [mbind M_bind lift try_except]. cbv zeta.
    destruct (get_message _); [|done].
    destruct (negb _); [done|]. by rewrite Hpt.
  - intros form. rewrite !predict_form_cases. cbv zeta.
    by rewrite Hpt.
Qed.







(** ** Path resolution *)

Lemma path_join_relative (a b : pystr) :
  head b <> Some 47%N -> exists dir, path_join a b = dir ++ b.
Proof.
  intros Hrel. unfold path_join. rewrite decide_False by done.
  case_decide.
  - by exists a.
  - exists (a ++ [47%N]). by rewrite <- app_assoc.
Qed.

(** X10. The resolved artifact paths are never empty. A variable that is
    set and non-empty is used as it is; one that is unset or empty falls
    back to the file beside the module, and the two fallbacks are
    different files of one directory. *)
Theorem resolved_paths (BASE_DIR : pystr) (env_model env_vec : option pystr) :
  resolve_model_path BASE_DIR env_model <> [] /\
  resolve_vectorizer_path BASE_DIR env_vec <> [] /\
  (forall p, p <> [] ->
     resolve_model_path BASE_DIR (Some p) = p /\
     resolve_vectorizer_path BASE_DIR (Some p) = p) /\
  resolve_model_path BASE_DIR (Some []) = resolve_model_path BASE_DIR None /\
  resolve_vectorizer_path BASE_DIR (Some [])
  = resolve_vectorizer_path BASE_DIR None /\
  (exists dir,
     resolve_model_path BASE_DIR None
     = dir ++ of_string "basic_classifier.pkl" /\
     resolve_vectorizer_path BASE_DIR None
     = dir ++ of_string "count_vectorizer.pkl") /\
  resolve_model_path BASE_DIR None <> resolve_vectorizer_path BASE_DIR None.
Proof.
  assert (Hdir : exists dir,
    path_join BASE_DIR (of_string "basic_classifier.pkl")
    = dir ++ of_string "basic_classifier.pkl" /\
    path_join BASE_DIR (of_string "count_vectorizer.pkl")
    = dir ++ of_string "count_vectorizer.pkl").
  { unfold path_join. rewrite !decide_False by done.
    case_decide.
    - by exists BASE_DIR.
    - exists (BASE_DIR ++ [47%N]). by rewrite <- !app_assoc. }
  destruct Hdir as (dir & Hm & Hv).
  assert (Hne : forall (d t : pystr), t <> [] -> d ++ t <> []).
  { intros d t Ht Heq. by apply app_eq_nil in Heq as [_ ?]. }
  unfold resolve_model_path, resolve_vectorizer_path, getenv_or.
  rewrite Hm, Hv. split_and!.
  - destruct env_model as [[|c p]|]; cbn [str_truthy]; try done;
      by apply Hne.
  - destruct env_vec as [[|c p]|]; cbn [str_truthy]; try done;
      by apply Hne.
  - intros [|c p] Hp; done.
  - done.
  - done.
  - by exists dir.
  - intros Heq. apply app_inv_head in Heq. done.
Qed.

(** ** More on several callers *)

Lemma finished_not_critical (c : pc) :
  finished c = true -> in_critical c = false.
Proof. by destruct c. Qed.

(** X11. Under every schedule the lock is held exactly by the caller that
    is between acquiring and releasing it, and it is free once every
    caller has returned or raised: the [with] block gives the lock back
    on both exits. *)
Theorem lock_tracks_critical (n : nat) (sched : list (filesystem * nat)) :
  let p := run sched (start n initial_store) in
  (forall i, _artifact_lock p = Some i <->
             exists c, threads p !! i = Some c /\ in_critical c = true) /\
  (Forall (fun c => finished c = true) (threads p) ->
   _artifact_lock p = None).
Proof.
  cbv zeta.
  pose proof (run_inv sched _ (start_inv n _ initial_store_ok))
    as (_ & Hl & Hh & _).
  assert (Hiff : forall i,
    _artifact_lock (run sched (start n initial_store)) = Some i <->
    exists c, threads (run sched (start n initial_store)) !! i = Some c /\
              in_critical c = true).
  { intros i. split.
    - intros Hi. destruct (lookup_lt_is_Some_2 _ _ (Hh i Hi)) as [c Hc].
      exists c. split; [done|]. by apply (Hl i c Hc).
    - intros (c & Hc & Hcrit). by apply (Hl i c Hc). }
  split; [exact Hiff|].
  intros Hall.
  destruct (_artifact_lock (run sched (start n initial_store)))
    as [i|] eqn:Hlock; [|done].
  destruct (proj1 (Hiff i) eq_refl) as (c & Hc & Hcrit).
  rewrite Forall_lookup in Hall.
  rewrite (finished_not_critical c (Hall i c Hc)) in Hcrit. done.
Qed.




Lemma sum_insert (f : pc -> nat) (l : list pc) (i : nat) (c c' : pc) :
  l !! i = Some c ->
  (sum_list (f <$> <[i := c']> l) + f c = sum_list (f <$> l) + f c')%nat.
Proof.
  revert i. induction l as [|d l IH]; intros [|i] Hi; try done.
  - injection Hi as ->. cbn. lia.
  - specialize (IH i Hi). cbn [insert list_insert fmap list_fmap].
    change (f d + sum_list (f <$> <[i := c']> l) + f c
            = f d + sum_list (f <$> l) + f c')%nat.
    lia.
Qed.

Lemma sum_le_length (f : pc -> nat) (l : list pc) :
  (forall c, f c <= 1)%nat -> (sum_list (f <$> l) <= List.length l)%nat.
Proof.
  intros Hf. induction l as [|d l IH]; [done|].
  change (f d + sum_list (f <$> l) <= S (List.length l))%nat.
  specialize (Hf d). lia.
Qed.

Lemma step_reads (fs : filesystem) (i : nat) (p p' : process) :
  thread_step fs i p = Some p' ->
  (model_reads p <= sum_list (past_model_read <$> threads p) ->
   model_reads p' <= sum_list (past_model_read <$> threads p'))%nat /\
  (vectorizer_reads p + sum_list (at_vectorizer_read <$> threads p)
   <= model_reads p ->
   vectorizer_reads p' + sum_list (at_vectorizer_read <$> threads p')
   <= model_reads p')%nat.
Proof.
  unfold thread_step.
  destruct (threads p !! i) as [c|] eqn:Hi; [|done].
  destruct c; try done.
  all: repeat match goal with
         | |- context [match ?x with _ => _ end] => destruct x
         end; try done.
  all: intros [= <-]; unfold goto;
    cbn [threads model_reads vectorizer_reads];
    match goal with
    | Hc : _ !! _ = Some _ |- context [<[_ := ?c']> _] =>
        pose proof (sum_insert past_model_read _ _ _ c' Hc) as Hr1;
        pose proof (sum_insert at_vectorizer_read _ _ _ c' Hc) as Hr2;
        cbn [past_model_read at_vectorizer_read] in Hr1, Hr2; lia
    end.
Qed.

(** X13. Whatever fails and however the callers interleave, the files are
    read at most once per caller: with [n] callers the classifier file is
    read at most [n] times, and the vectorizer file never more often than
    the classifier file. *)
Theorem reads_bounded (n : nat) (sched : list (filesystem * nat)) :
  let p := run sched (start n initial_store) in
  (model_reads p <= n)%nat /\
  (vectorizer_reads p <= model_reads p)%nat.
Proof.
  cbv zeta.
  assert (Hinv : forall (sched : list (filesystem * nat)) p,
    (model_reads p <= sum_list (past_model_read <$> threads p))%nat ->
    (vectorizer_reads p + sum_list (at_vectorizer_read <$> threads p)
     <= model_reads p)%nat ->
    (model_reads (run sched p)
     <= sum_list (past_model_read <$> threads (run sched p)))%nat /\
    (vectorizer_reads (run sched p)
     + sum_list (at_vectorizer_read <$> threads (run sched p))
     <= model_reads (run sched p))%nat).
  { clear sched. induction sched as [|[fs i] sched IH]; intros p Ha Hb;
      [done|].
    cbn. destruct (thread_step fs i p) as [p'|] eqn:Hstep; cbn;
      [|by apply IH].
    destruct (step_reads fs i p p' Hstep) as [Ha' Hb']. apply IH; auto. }
  destruct (Hinv sched (start n initial_store)) as [Ha Hb].
  - cbn. lia.
  - cbn. induction n as [|n IHn]; cbn in *; lia.
  - split; [|lia].
    etransitivity; [exact Ha|].
    etransitivity; [apply sum_le_length; intros c; destruct c; cbn; lia|].
    rewrite run_length. cbn. by rewrite length_replicate.
Qed.

(** ** The string form of a number *)

Lemma lstrip_no_space (s : pystr) :
  Forall (fun c => py_isspace c = false) s -> lstrip s = s.
Proof. destruct 1 as [|c s Hc _]; cbn; [done|]. by rewrite Hc. Qed.

Lemma strip_no_space (s : pystr) :
  Forall (fun c => py_isspace c = false) s -> strip s = s.
Proof.
  intros Hs. unfold strip, rstrip. rewrite (lstrip_no_space s Hs).
  rewrite lstrip_no_space by (by apply Forall_reverse).
  apply reverse_involutive.
Qed.

Lemma of_string_String (a : ascii) (t : string) :
  of_string (String a t) = N_of_ascii a :: of_string t.
Proof. reflexivity. Qed.

Lemma pretty_N_char_no_space (x : N) :
  py_isspace (N_of_ascii (pretty_N_char x)) = false.
Proof. unfold pretty_N_char. by repeat case_match. Qed.

Lemma pretty_N_go_no_space (x : N) (t : string) :
  Forall (fun c => py_isspace c = false) (of_string t) ->
  Forall (fun c => py_isspace c = false) (of_string (pretty_N_go x t)).
Proof.
  revert t. induction (N.lt_wf_0 x) as [x _ IH]; intros t Ht.
  assert (x = 0 \/ 0 < x)%N as [->|Hx] by lia.
  - by rewrite pretty_N_go_0.
  - rewrite pretty_N_go_step by done. apply IH; [by apply N.div_lt|].
    rewrite of_string_String. constructor; [|done].
    apply pretty_N_char_no_space.
Qed.

Lemma pretty_N_go_nonempty (x : N) (t : string) :
  (0 < x)%N \/ t <> EmptyString -> pretty_N_go x t <> EmptyString.
Proof.
  revert t. induction (N.lt_wf_0 x) as [x _ IH]; intros t Hxt.
  assert (x = 0 \/ 0 < x)%N as [->|Hx] by lia.
  - rewrite pretty_N_go_0. destruct Hxt as [?|?]; [lia|done].
  - rewrite pretty_N_go_step by done. apply IH; [by apply N.div_lt|].
    by right.
Qed.

Lemma pretty_Z_no_space (z : Z) :
  Forall (fun c => py_isspace c = false) (of_string (pretty z)) /\
  of_string (pretty z) <> [].
Proof.
  assert (Hpos : forall p : positive,
    Forall (fun c => py_isspace c = false) (of_string (pretty p)) /\
    pretty p <> EmptyString).
  { intros p. unfold pretty, pretty_positive, pretty, pretty_N.
    rewrite decide_False by done. split.
    - apply pretty_N_go_no_space. constructor.
    - apply pretty_N_go_nonempty. left. lia. }
  assert (Hne : forall t : string, t <> EmptyString -> of_string t <> []).
  { by intros [|a t]. }
  destruct z as [|p|p]; unfold pretty, pretty_Z.
  - split; [by repeat constructor|done].
  - destruct (Hpos p). auto.
  - destruct (Hpos p) as [Hp _]. split; [|done].
    change (Forall (fun c => py_isspace c = false)
                   (45%N :: of_string (pretty p))).
    by constructor.
Qed.

Lemma scalar_str_no_space (v : json) :
  v = JNull \/ (exists b, v = JBool b) \/ (exists z, v = JInt z) ->
  Forall (fun c => py_isspace c = false) (json_str v) /\ json_str v <> [].
Proof.
  intros [->|[[b ->]|[z ->]]]; cbn [json_str].
  - split; [by repeat constructor|done].
  - destruct b; (split; [by repeat constructor|done]).
  - apply pretty_Z_no_space.
Qed.

(** X14. A [message] that is [null], a boolean or an integer is never
    rejected with 400: its string form has no whitespace and is not
    empty, so trimming leaves it as it is and [_predict_text] is called
    on exactly that string form. *)
Theorem scalar_message_accepted (fs : filesystem) (s : store)
    (kv : list (pystr * json)) (v : json) :
  dict_get (of_string "message") kv = Some v ->
  v = JNull \/ (exists b, v = JBool b) \/ (exists z, v = JInt z) ->
  strip (json_str v) = json_str v /\ json_str v <> [] /\
  exists resp,
    predict_json fs (Some (JObj kv)) s
    = (Ok resp, (_predict_text fs (json_str v) s).2) /\
    (resp_status resp <> 400)%Z /\
    match (_predict_text fs (json_str v) s).1 with
    | Ok label =>
        resp = Response (JsonBody (JObj [(of_string "label", JStr label)]))
                        200
    | Raise e =>
        resp = if is_FileNotFoundError e
               then Response (json_error msg_not_found) 503
               else Response (json_error msg_failed) 500
    end.
Proof.
  intros Hget Hv. destruct (scalar_str_no_space v Hv) as [Hns Hne].
  pose proof (strip_no_space _ Hns) as Hstrip.
  split_and!; try done.
  rewrite predict_json_object, Hget. cbn [from_option id]. cbv zeta.
  rewrite Hstrip, (proj2 (str_truthy_nonempty _) Hne).
  destruct (_predict_text fs _ s) as [[label|e] s']; cbn [fst snd].
  - eexists. split_and!; try reflexivity. cbn. lia.
  - eexists. split_and!; try reflexivity.
    destruct (is_FileNotFoundError e); cbn; lia.
Qed.

End Properties.

(** * The concrete deployment: evaluations *)

#[local] Existing Instance demo_runtime.



(** ** The loader *)




(** ** Several callers *)



(** ** Inference and the handlers *)



(** [predict_text_label] on the first request of a process: the classifier
    answers the numpy scalar 1 and the label is "1". *)
Lemma predict_text_label_witness :
  _load_artifacts_once fs_present initial_store
  = (Ok tt, Store (Some demo_model) (Some demo_vectorizer)) /\
  hasattr_item (np_int64 1) = true /\
  _predict_text fs_present hello initial_store
  = (Ok (of_string "1"), Store (Some demo_model) (Some demo_vectorizer)).
Proof.
  do 2 (split; [reflexivity|]).
  exact (predict_text_label fs_present initial_store
           (Store (Some demo_model) (Some demo_vectorizer)) hello
           demo_model demo_vectorizer [5%nat] [np_int64 1] (np_int64 1)
           eq_refl eq_refl eq_refl eq_refl eq_refl eq_refl).
Defined.

(** A value without [item] is passed through [str] as it is. *)
Lemma predict_text_native_label :
  _predict_text fs_present_spam hello initial_store
  = (Ok (of_string "spam"),
     Store (Some demo_model_spam) (Some demo_vectorizer)).
Proof. reflexivity. Qed.

(** [predict_json_statuses] on the body [{}], on [{"message": "hello"}]
    with both files in place, and on the same body with no file. *)
Lemma predict_json_statuses_witness :
  predict_json fs_present (Some (JObj [])) initial_store
  = (Ok (Response (json_error msg_required) 400), initial_store) /\
  predict_json fs_present (message_body (JStr hello)) initial_store
  = (Ok (Response (JsonBody (JObj [(of_string "label", JStr (of_string "1"))]))
                  200),
     Store (Some demo_model) (Some demo_vectorizer)) /\
  predict_json fs_missing (message_body (JStr hello)) initial_store
  = (Ok (Response (json_error msg_not_found) 503), initial_store).
Proof.
  pose proof (predict_json_statuses fs_present initial_store)
    as [H400 Hlabel].
  split; [|split].
  - apply H400. right; left. exists (JObj []). split; reflexivity.
  - refine (Hlabel [(of_string "message", JStr hello)] (JStr hello)
              eq_refl _).
    discriminate.
  - refine (proj2 (predict_json_statuses fs_missing initial_store)
              [(of_string "message", JStr hello)] (JStr hello) eq_refl _).
    discriminate.
Defined.

(** [predict_json_stringifies] on [{"message": null}]: the classifier is
    fed "None". *)
Lemma predict_json_stringifies_witness :
  strip (json_str JNull) = of_string "None" /\
  (predict_json fs_present (message_body JNull) initial_store).1
  = Ok (Response (JsonBody (JObj [(of_string "label", JStr (of_string "0"))]))
                 200).
Proof.
  split; [reflexivity|].
  destruct (proj2 (proj2 (proj2 predict_json_stringifies))
              fs_present initial_store
              [(of_string "message", JNull)] JNull eq_refl eq_refl)
    as (resp & Heq & _ & Hresp).
  unfold message_body. rewrite Heq. cbn [fst]. f_equal. exact Hresp.
Defined.

(** A body that is a JSON array has no [get]: the handler raises outside
    its [try]. *)
Lemma predict_json_array_body :
  (predict_json fs_present (Some (JArr [JInt 1])) initial_store).1
  = Raise AttributeError.
Proof. reflexivity. Qed.

(** C5, counterexample. A body that is a JSON string or a JSON array has
    no [message] field, and the handler raises [AttributeError] outside
    its [try] instead of answering 400. With the artifacts loaded and a
    classifier whose [predict] raises [FileNotFoundError], the inference
    failure is answered 503, not 500. *)
Lemma predict_json_other_outcomes :
  predict_json fs_present (Some (JStr hello)) initial_store
  = (Raise AttributeError, initial_store) /\
  predict_json fs_present (Some (JArr [JInt 1])) initial_store
  = (Raise AttributeError, initial_store) /\
  is_loaded (Store (Some demo_model_fnf) (Some demo_vectorizer)) = true /\
  fs_present MODEL_PATH = Ok demo_model /\
  predict_json fs_present (message_body (JStr hello))
               (Store (Some demo_model_fnf) (Some demo_vectorizer))
  = (Ok (Response (json_error msg_not_found) 503),
     Store (Some demo_model_fnf) (Some demo_vectorizer)).
Proof. repeat split; reflexivity. Qed.

(** ** Validation, answers and pages *)

(** [blank_message_rejected] on a message of three spaces. *)
Lemma blank_message_rejected_witness :
  Forall (fun c => py_isspace c = true) (of_string "   ") /\
  predict_json fs_present (message_body (JStr (of_string "   "))) initial_store
  = (Ok (Response (json_error msg_required) 400), initial_store).
Proof.
  assert (Hsp : Forall (fun c => py_isspace c = true) (of_string "   "))
    by (repeat constructor).
  split; [exact Hsp|].
  exact (proj1 (proj1 (blank_message_rejected fs_present initial_store
                         [(of_string "message", JStr (of_string "   "))]
                         (of_string "   ") eq_refl)) Hsp).
Defined.


(** [loaded_ignores_files]: with the artifacts loaded, the answer is the
    same with the files gone. *)
Lemma loaded_ignores_files_witness :
  is_loaded (Store (Some demo_model) (Some demo_vectorizer)) = true /\
  predict_json fs_missing (message_body (JStr hello))
               (Store (Some demo_model) (Some demo_vectorizer))
  = predict_json fs_present (message_body (JStr hello))
                 (Store (Some demo_model) (Some demo_vectorizer)).
Proof.
  split; [reflexivity|].
  exact (proj1 (proj2 (loaded_ignores_files fs_missing fs_present
                         (Store (Some demo_model) (Some demo_vectorizer))
                         eq_refl)) (message_body (JStr hello))).
Defined.




(** [scalar_message_accepted] on the number -12. *)
Lemma scalar_message_accepted_witness :
  json_str (JInt (-12)) = of_string "-12" /\
  strip (json_str (JInt (-12))) = json_str (JInt (-12)).
Proof.
  split; [reflexivity|].
  exact (proj1 (scalar_message_accepted fs_present initial_store
                  [(of_string "message", JInt (-12))] (JInt (-12)) eq_refl
                  (or_intror (or_intror (ex_intro _ (-12)%Z eq_refl))))).
Defined.

(** ** Several callers, continued *)

